(** * Patient Visit Prediction Dashboard: the prediction page of [app.py]

    The page picks a patient and a date, builds a one-row frame of calendar
    features ([input_data], lines 47-57), hands it to the loaded pipeline
    (line 60) and shows [max(0, round(prediction[0]))] (line 64).

    The embedding follows the script: [datetime.date] with the integer
    arithmetic of its [weekday()] and [isocalendar()] methods, the row of
    [input_data] as a record, the value returned by [pipeline.predict] as a
    small Python object type with binary64 floats, and exceptions as an
    error result. *)

From Stdlib Require Import ZArith Lia List String Bool QArith Qabs Lqa.
From Stdlib Require Import Floats.SpecFloat.
Import ListNotations.
Local Open Scope string_scope.
Local Open Scope list_scope.
Local Open Scope Z_scope.

(** ** [datetime.date]

    The script reads [.year], [.month], [.weekday()] and
    [.isocalendar().week] of the selected date (lines 49-53).  The methods
    are those of the standard library, embedded with the integer arithmetic
    of Lib/datetime.py; [//] and [%] are floor division and its remainder,
    as [Z.div] and [Z.modulo] are for a positive divisor. *)

Module datetime.

Record date := mkdate { year : Z; month : Z; day : Z }.

Definition MINYEAR : Z := 1.
Definition MAXYEAR : Z := 9999.

(* -1 is a placeholder for indexing purposes. *)
Definition _DAYS_IN_MONTH : list Z :=
  [-1; 31; 28; 31; 30; 31; 30; 31; 31; 30; 31; 30; 31].

Definition _DAYS_BEFORE_MONTH : list Z :=
  [-1; 0; 31; 59; 90; 120; 151; 181; 212; 243; 273; 304; 334].

Definition index (l : list Z) (i : Z) : Z := nth (Z.to_nat i) l 0.

(* year % 4 == 0 and (year % 100 != 0 or year % 400 == 0) *)
Definition _is_leap (y : Z) : bool :=
  (y mod 4 =? 0) && (negb (y mod 100 =? 0) || (y mod 400 =? 0)).

(* y = year - 1; y*365 + y//4 - y//100 + y//400 *)
Definition _days_before_year (yr : Z) : Z :=
  let y := yr - 1 in y * 365 + y / 4 - y / 100 + y / 400.

Definition _days_in_month (y m : Z) : Z :=
  if (m =? 2) && _is_leap y then 29 else index _DAYS_IN_MONTH m.

(* _DAYS_BEFORE_MONTH[month] + (month > 2 and _is_leap(year)) *)
Definition _days_before_month (y m : Z) : Z :=
  index _DAYS_BEFORE_MONTH m + (if (2 <? m) && _is_leap y then 1 else 0).

Definition _ymd2ord (y m d : Z) : Z :=
  _days_before_year y + _days_before_month y m + d.

(* The checks of the [date] constructor: a [date] object exists only
   for fields that pass them. *)
Definition valid (d : date) : bool :=
  (MINYEAR <=? year d) && (year d <=? MAXYEAR)
  && (1 <=? month d) && (month d <=? 12)
  && (1 <=? day d) && (day d <=? _days_in_month (year d) (month d)).

Definition toordinal (d : date) : Z := _ymd2ord (year d) (month d) (day d).

(* Return day of the week, where Monday == 0 ... Sunday == 6. *)
Definition weekday (d : date) : Z := (toordinal d + 6) mod 7.

(* Day number of the Monday starting ISO week 1 of [y]. *)
Definition _isoweek1monday (y : Z) : Z :=
  let THURSDAY := 3 in
  let firstday := _ymd2ord y 1 1 in
  let firstweekday := (firstday + 6) mod 7 in
  let week1monday := firstday - firstweekday in
  if THURSDAY <? firstweekday then week1monday + 7 else week1monday.

Record IsoCalendarDate := mkiso { iso_year : Z; week : Z; iso_weekday : Z }.

Definition isocalendar (d : date) : IsoCalendarDate :=
  let y := year d in
  let week1monday := _isoweek1monday y in
  let today := _ymd2ord (year d) (month d) (day d) in
  (* internally, week and day have origin 0 *)
  let w := (today - week1monday) / 7 in
  let wd := (today - week1monday) mod 7 in
  if w <? 0 then
    let y' := y - 1 in
    let week1monday' := _isoweek1monday y' in
    mkiso y' ((today - week1monday') / 7 + 1)
             ((today - week1monday') mod 7 + 1)
  else if (52 <=? w) && (_isoweek1monday (y + 1) <=? today) then
    mkiso (y + 1) (0 + 1) (wd + 1)
  else
    mkiso y (w + 1) (wd + 1).

End datetime.

(** ** The feature row ([input_data], lines 47-57) *)

(* One row of the frame; the columns in the order of the dict.  The patient
   is what the select box returned: a name, or None on an empty roster. *)
Record FeatureRecord := mkFeatureRecord {
  PATIENT_NAME : option string;
  year : Z;
  month : Z;
  day_of_week : Z;
  week_of_year : Z;
  quarter : Z
}.

Definition build_features (selected_patient : option string)
                          (selected_date : datetime.date) : FeatureRecord :=
  {| PATIENT_NAME := selected_patient;
     year := datetime.year selected_date;
     month := datetime.month selected_date;
     day_of_week := datetime.weekday selected_date;
     week_of_year := datetime.week (datetime.isocalendar selected_date);
     quarter := (datetime.month selected_date - 1) / 3 + 1 |}.

(** ** Python values, exceptions and builtins used on line 64 *)

(* An exception, by the name of its class. *)
Inductive exn := Exn (cls : string).

Inductive result (A : Type) :=
| Ok (a : A)
| Raise (e : exn).
Arguments Ok {A} a.
Arguments Raise {A} e.

(* The values of [pipeline.predict] that are modelled: an array (or list)
   of predictions, whose items are binary64 floats for a regressor, and
   beside it None, a builtin int, float or str.  Mappings, bare numpy
   scalars and objects with their own [__getitem__] or [__round__] are not
   modelled; nothing below is stated about them. *)
#[local] Set Warnings "-register-all".
Inductive pyobj :=
| PyNone
| PyInt (n : Z)
| PyFloat (x : spec_float)
| PyStr (s : string)
| PyArr (items : list pyobj).

(* [obj[0]] on the modelled values; a bare number is a builtin int or
   float, which cannot be subscripted. *)
Definition getitem0 (obj : pyobj) : result pyobj :=
  match obj with
  | PyArr (v :: _) => Ok v
  | PyArr [] => Raise (Exn "IndexError")
  | PyStr (String c _) => Ok (PyStr (String c EmptyString))
  | PyStr EmptyString => Raise (Exn "IndexError")
  | PyNone | PyInt _ | PyFloat _ => Raise (Exn "TypeError")
  end.

(* The integer nearest to [m * 2^e], the even one of the two when [m * 2^e]
   lies half-way: what one-argument [round] computes on a float. *)
Definition round_half_even (m : positive) (e : Z) : Z :=
  if 0 <=? e then Z.pos m * 2 ^ e
  else
    let d := 2 ^ (- e) in
    let q := Z.pos m / d in
    let r := Z.pos m mod d in
    match 2 * r ?= d with
    | Lt => q
    | Gt => q + 1
    | Eq => if Z.even q then q else q + 1
    end.

Definition nearest_even (x : spec_float) : Z :=
  match x with
  | S754_finite s m e => cond_Zopp s (round_half_even m e)
  | _ => 0
  end.

(* [round(x)] with one argument: an int for an int or a float (rounding
   the exact value of the float, ties to even); NaN and the infinities have
   no integer value; other objects define no [__round__]. *)
Definition py_round (obj : pyobj) : result Z :=
  match obj with
  | PyInt n => Ok n
  | PyFloat S754_nan => Raise (Exn "ValueError")
  | PyFloat (S754_infinity _) => Raise (Exn "OverflowError")
  | PyFloat x => Ok (nearest_even x)
  | PyNone | PyStr _ | PyArr _ => Raise (Exn "TypeError")
  end.

(** ** The page as a computation *)

(* The loaded pipeline, seen through its [predict] method. *)
Definition Scorer : Type := FeatureRecord -> result pyobj.

(* A computation of the page may raise, and it records, in order, every
   frame handed to [pipeline.predict]. *)
Definition M (A : Type) : Type :=
  list FeatureRecord -> list FeatureRecord * result A.

Definition ret {A} (a : A) : M A := fun calls => (calls, Ok a).

Definition lift {A} (r : result A) : M A := fun calls => (calls, r).

Definition bind {A B} (c : M A) (k : A -> M B) : M B :=
  fun calls =>
    match c calls with
    | (calls', Ok a) => k a calls'
    | (calls', Raise e) => (calls', Raise e)
    end.

Notation "x <- c ;; k" := (bind c (fun x => k))
  (at level 61, c at next level, right associativity).

Definition predict (pipeline : Scorer) (X : FeatureRecord) : M pyobj :=
  fun calls => (calls ++ [X], pipeline X).

(* Lines 47-57: the frame is built from the two widget values alone. *)
Definition input_data (selected_patient : option string)
                      (selected_date : datetime.date) : M FeatureRecord :=
  ret (build_features selected_patient selected_date).

(* Lines 60 and 64: [max(0, round(pipeline.predict(input_data)[0]))]. *)
Definition predict_visits (pipeline : Scorer) (X : FeatureRecord) : M Z :=
  predicted_visit_count <- predict pipeline X ;;
  first <- lift (getitem0 predicted_visit_count) ;;
  rounded <- lift (py_round first) ;;
  ret (Z.max 0 rounded).

Inductive Page := Prediction | Data_Insights.

(* One run of the script: what was loaded, the clock, and what the user
   did with the widgets. *)
Record Session := mkSession {
  pipeline : Scorer;                      (* joblib.load(model_path) *)
  patient_names : list string;            (* pickle.load(f) *)
  today : datetime.date;                  (* datetime.today() *)
  page : Page;
  patient_choice : nat;                   (* position chosen in the select box *)
  date_choice : option datetime.date;     (* date picked, if the default was changed *)
  button : bool                           (* 'Predict Visit Count' pressed *)
}.

(* [st.selectbox(label, options)]: the option at the chosen position; the
   widget offers the positions of [options] only, and yields None when
   there is none. *)
Definition selectbox (options : list string) (choice : nat) : option string :=
  nth_error options choice.

(* [st.date_input(label, value=default)]. *)
Definition date_input (default : datetime.date)
                      (choice : option datetime.date) : datetime.date :=
  match choice with
  | Some d => d
  | None => default
  end.

Definition selected_patient (s : Session) : option string :=
  selectbox (patient_names s) (patient_choice s).

Definition selected_date (s : Session) : datetime.date :=
  date_input (today s) (date_choice s).

(* What the prediction page writes. *)
Inductive Output :=
| Nothing
| PredictedVisitCount (patient : option string) (date : datetime.date)
                      (count : Z).

Definition app (s : Session) : M Output :=
  match page s with
  | Prediction =>
      if button s then
        X <- input_data (selected_patient s) (selected_date s) ;;
        count <- predict_visits (pipeline s) X ;;
        ret (PredictedVisitCount (selected_patient s) (selected_date s) count)
      else ret Nothing
  | Data_Insights => ret Nothing
  end.

(** ** The insights page: the simulated daily series (lines 85-86) *)

(* [pd.date_range(start, end, freq='D')]: every day from [start] to [end],
   both included; a day stands as its day number. *)
Definition date_range (start stop : datetime.date) : list Z :=
  map (fun i => datetime.toordinal start + Z.of_nat i)
      (seq 0 (Z.to_nat (datetime.toordinal stop - datetime.toordinal start + 1))).

(* [[100 + i % 30 * 10 for i in range(n)]] *)
Definition simulated_visits (n : nat) : list Z :=
  map (fun i => 100 + Z.of_nat i mod 30 * 10) (seq 0 n).

(* [pd.Series(index=date_range, data=[... for i in range(len(date_range))])]:
   the pairs of a day and its value. *)
Definition visits_by_date (start stop : datetime.date) : list (Z * Z) :=
  combine (date_range start stop)
          (simulated_visits (List.length (date_range start stop))).

(** ** Reference notions the properties are stated against *)

(* ISO 8601 week numbering: weeks start on Monday and week 1 of a year is
   the week containing the year's first Thursday.  So a week belongs to the
   year [Y] its Thursday falls in, and it is week [w] when that Thursday is
   the [w]-th Thursday of [Y]. *)
Definition iso8601_week (d : datetime.date) (Y w : Z) : bool :=
  let thursday := datetime.toordinal d - datetime.weekday d + 3 in
  (datetime._days_before_year Y <? thursday)
  && (thursday <=? datetime._days_before_year (Y + 1))
  && (w =? (thursday - datetime._days_before_year Y - 1) / 7 + 1).

(* Zeller's congruence for the Gregorian calendar (0 = Saturday), moved to
   Monday = 0.  January and February count as months 13 and 14 of the
   year before. *)
Definition zeller_weekday (d : datetime.date) : Z :=
  let q := datetime.day d in
  let m := if datetime.month d <? 3 then datetime.month d + 12
           else datetime.month d in
  let Y := if datetime.month d <? 3 then datetime.year d - 1
           else datetime.year d in
  let K := Y mod 100 in
  let J := Y / 100 in
  let h := (q + 13 * (m + 1) / 5 + K + K / 4 + J / 4 + 5 * J) mod 7 in
  (h + 5) mod 7.

(* The day after [d] in the calendar. *)
Definition tomorrow (d : datetime.date) : datetime.date :=
  let y := datetime.year d in
  let m := datetime.month d in
  if datetime.day d <? datetime._days_in_month y m
  then datetime.mkdate y m (datetime.day d + 1)
  else if m <? 12 then datetime.mkdate y (m + 1) 1
  else datetime.mkdate (y + 1) 1 1.

(* Quarter of each month, January first. *)
Definition quarter_of_month : list Z := [1; 1; 1; 2; 2; 2; 3; 3; 3; 4; 4; 4].

(* A scorer output that is a real number: not NaN, not an infinity. *)
Definition is_real (x : spec_float) : bool :=
  match x with
  | S754_zero _ | S754_finite _ _ _ => true
  | S754_infinity _ | S754_nan => false
  end.

Definition is_binary64 (x : spec_float) : bool := valid_binary 53 1024 x.

(* The real number a float stands for. *)
Definition SF2Q (x : spec_float) : Q :=
  match x with
  | S754_finite s m e =>
      if 0 <=? e then inject_Z (cond_Zopp s (Z.pos m) * 2 ^ e)
      else Qmake (cond_Zopp s (Z.pos m)) (Z.to_pos (2 ^ (- e)))
  | _ => 0%Q
  end.

(* The two usual tie-break rules, on the half-way number [k + 1/2]. *)
Definition half_to_even (k : Z) : Z := if Z.even k then k else k + 1.

Definition half_away_from_zero (k : Z) : Z := if 0 <=? k then k + 1 else k.

(* A prediction [round] and [[0]] accept: an array that starts with a
   number. *)
Definition numeric (v : pyobj) : bool :=
  match v with
  | PyArr (PyInt _ :: _) => true
  | PyArr (PyFloat x :: _) => is_real x
  | _ => false
  end.


(** ** Sample inputs *)

Definition date_2024_12_30 : datetime.date := datetime.mkdate 2024 12 30.

(* Two runs that share nothing but the selection. *)
Definition session_a : Session :=
  mkSession (fun _ => Ok (PyArr [PyFloat (S754_zero false)]))
            ["patient_a"; "patient_b"] (datetime.mkdate 2024 1 11)
            Prediction 1 (Some date_2024_12_30) true.

Definition session_b : Session :=
  mkSession (fun _ => Raise (Exn "RuntimeError"))
            ["patient_c"; "patient_b"; "patient_a"] date_2024_12_30
            Data_Insights 1 None false.

(* The binary64 floats -3.2 and 4.5. *)
Definition float_m3_2 : spec_float := S754_finite true 7205759403792794 (-51).
Definition float_4_5 : spec_float := S754_finite false 5066549580791808 (-50).

(* The frame of 2024-12-30 for "patient_a". *)
Definition X0 : FeatureRecord :=
  build_features (Some "patient_a") date_2024_12_30.

(* The binary64 floats 0.5, 1.5 and 7.0. *)
Definition float_0_5 : spec_float := S754_finite false 4503599627370496 (-53).
Definition float_1_5 : spec_float := S754_finite false 6755399441055744 (-52).
Definition float_7_0 : spec_float := S754_finite false 7881299347898368 (-50).

(* A run that presses the button with the pipeline out of order. *)
Definition session_c : Session :=
  mkSession (fun _ => Raise (Exn "RuntimeError"))
            ["patient_a"; "patient_b"] (datetime.mkdate 2025 1 1)
            Prediction 0 None true.

(* A run whose pipeline predicts 1.5 visits. *)
Definition session_d : Session :=
  mkSession (fun _ => Ok (PyArr [PyFloat float_1_5]))
            ["patient_a"; "patient_b"] (datetime.mkdate 2025 1 1)
            Prediction 0 None true.

(* The first and the last day of the simulated series. *)
Definition date_2024_01_11 : datetime.date := datetime.mkdate 2024 1 11.
Definition date_2025_12_03 : datetime.date := datetime.mkdate 2025 12 3.

(** ** Calendar arithmetic *)

Module CalendarFacts.
Import datetime.

Ltac eval_index :=
  repeat match goal with
  | |- context [index ?l ?k] =>
      let v := eval vm_compute in (index l k) in change (index l k) with v
  | H : context [index ?l ?k] |- _ =>
      let v := eval vm_compute in (index l k) in
      change (index l k) with v in H
  end.

Ltac eval_tests :=
  cbn [Z.eqb Z.ltb Z.compare Pos.compare Pos.compare_cont Pos.eqb andb] in *.

Ltac eval_sums :=
  repeat match goal with
  | |- context [Z.pos ?a + Z.pos ?b] =>
      let v := eval vm_compute in (Z.pos a + Z.pos b) in
      change (Z.pos a + Z.pos b) with v
  end.

Lemma bool_01 (b : bool) : 0 <= (if b then 1 else 0) <= 1.
Proof. destruct b; lia. Qed.

Lemma month_cases m :
  1 <= m <= 12 ->
  m = 1 \/ m = 2 \/ m = 3 \/ m = 4 \/ m = 5 \/ m = 6 \/
  m = 7 \/ m = 8 \/ m = 9 \/ m = 10 \/ m = 11 \/ m = 12.
Proof. lia. Qed.

Ltac each_month m Hm :=
  destruct (month_cases m Hm)
    as [->|[->|[->|[->|[->|[->|[->|[->|[->|[->|[->| ->]]]]]]]]]]].

(* The Gregorian rule, read off the floor divisions of the day count. *)
Lemma is_leap_cases y :
  let extra := y / 4 - (y - 1) / 4 - (y / 100 - (y - 1) / 100)
               + (y / 400 - (y - 1) / 400) in
  (_is_leap y = true /\ extra = 1) \/ (_is_leap y = false /\ extra = 0).
Proof.
  unfold _is_leap.
  destruct (Z.eqb_spec (y mod 4) 0), (Z.eqb_spec (y mod 100) 0),
           (Z.eqb_spec (y mod 400) 0); simpl;
    Z.div_mod_to_equations; lia.
Qed.

Lemma days_before_year_succ y :
  _days_before_year (y + 1)
  = _days_before_year y + 365 + (if _is_leap y then 1 else 0).
Proof.
  unfold _days_before_year. replace (y + 1 - 1) with y by lia.
  destruct (is_leap_cases y) as [[-> H]|[-> H]]; cbv zeta in H; lia.
Qed.

Lemma days_before_year_mono a b :
  a <= b -> _days_before_year a <= _days_before_year b.
Proof.
  unfold _days_before_year. intros H. Z.div_mod_to_equations. lia.
Qed.

Lemma valid_fields d :
  valid d = true ->
  1 <= datetime.year d <= 9999 /\ 1 <= datetime.month d <= 12 /\
  1 <= day d <= _days_in_month (datetime.year d) (datetime.month d).
Proof.
  unfold valid, MINYEAR, MAXYEAR.
  rewrite !andb_true_iff, !Z.leb_le. lia.
Qed.

Lemma day_of_year_bounds y m dd :
  1 <= m <= 12 -> 1 <= dd <= _days_in_month y m ->
  1 <= _days_before_month y m + dd <= 365 + (if _is_leap y then 1 else 0).
Proof.
  intros Hm Hd. unfold _days_in_month, _days_before_month in *.
  each_month m Hm; destruct (_is_leap y); eval_index; eval_tests; lia.
Qed.

Lemma toordinal_in_year d :
  valid d = true ->
  _days_before_year (datetime.year d) < toordinal d
  <= _days_before_year (datetime.year d + 1).
Proof.
  intros H. destruct (valid_fields d H) as (_ & Hm & Hd).
  pose proof (day_of_year_bounds _ _ _ Hm Hd).
  rewrite days_before_year_succ. unfold toordinal, _ymd2ord. lia.
Qed.

Lemma ymd2ord_jan1 y : _ymd2ord y 1 1 = _days_before_year y + 1.
Proof.
  unfold _ymd2ord, _days_before_month. eval_index. eval_tests. lia.
Qed.

(* Week 1 starts on a Monday, at most three days before January 1st and
   at most three days after it. *)
Lemma isoweek1monday_spec y :
  _days_before_year y - 2 <= _isoweek1monday y <= _days_before_year y + 4
  /\ (_isoweek1monday y + 6) mod 7 = 0.
Proof.
  unfold _isoweek1monday. rewrite ymd2ord_jan1. cbv zeta.
  set (D := _days_before_year y).
  destruct (Z.ltb_spec 3 ((D + 1 + 6) mod 7));
    Z.div_mod_to_equations; lia.
Qed.

(* Everything the week arithmetic needs to know about the years
   around [y]. *)
Ltac calendar_facts y :=
  pose proof (isoweek1monday_spec y) as [? ?];
  pose proof (isoweek1monday_spec (y - 1)) as [? ?];
  pose proof (isoweek1monday_spec (y + 1)) as [? ?];
  pose proof (days_before_year_succ y);
  pose proof (days_before_year_succ (y - 1));
  pose proof (days_before_year_succ (y + 1));
  pose proof (bool_01 (_is_leap y));
  pose proof (bool_01 (_is_leap (y - 1)));
  pose proof (bool_01 (_is_leap (y + 1)));
  replace (y - 1 + 1) with y in * by lia.

(* [isocalendar] attributes each date to the ISO year and week of the
   Thursday of its week. *)
Lemma isocalendar_iso8601 d :
  valid d = true ->
  iso8601_week d (iso_year (isocalendar d)) (week (isocalendar d)) = true.
Proof.
  intros H. pose proof (toordinal_in_year d H) as Hin.
  unfold iso8601_week, weekday, isocalendar. cbv zeta.
  unfold toordinal in *. set (t := _ymd2ord _ _ _) in *.
  set (y := datetime.year d) in *. clearbody t y.
  destruct (Z.ltb_spec ((t - _isoweek1monday y) / 7) 0) as [Hw|Hw];
    [|destruct (Z.leb_spec 52 ((t - _isoweek1monday y) / 7)) as [Hw2|Hw2];
      [destruct (Z.leb_spec (_isoweek1monday (y + 1)) t) as [Hw3|Hw3]|]];
    cbn [andb iso_year week];
    rewrite !andb_true_iff, Z.ltb_lt, Z.leb_le, Z.eqb_eq;
    calendar_facts y;
    Z.div_mod_to_equations; lia.
Qed.

(* The reference leaves no choice: a date has one ISO year and week. *)
Lemma iso8601_week_unique d Y1 w1 Y2 w2 :
  iso8601_week d Y1 w1 = true -> iso8601_week d Y2 w2 = true ->
  Y1 = Y2 /\ w1 = w2.
Proof.
  unfold iso8601_week. cbv zeta.
  rewrite !andb_true_iff, !Z.ltb_lt, !Z.leb_le, !Z.eqb_eq.
  intros [[L1 U1] E1] [[L2 U2] E2].
  assert (Y1 = Y2) as <-.
  { destruct (Z.lt_trichotomy Y1 Y2) as [Hlt|[Heq|Hgt]]; [|exact Heq|].
    - pose proof (days_before_year_mono (Y1 + 1) Y2 ltac:(lia)). lia.
    - pose proof (days_before_year_mono (Y2 + 1) Y1 ltac:(lia)). lia. }
  split; [reflexivity | congruence].
Qed.

Lemma iso8601_week_range d Y w :
  iso8601_week d Y w = true -> 1 <= w <= 53.
Proof.
  unfold iso8601_week. cbv zeta.
  rewrite !andb_true_iff, !Z.ltb_lt, !Z.leb_le, !Z.eqb_eq.
  intros [[L U] E]. rewrite days_before_year_succ in U.
  pose proof (bool_01 (_is_leap Y)).
  Z.div_mod_to_equations. lia.
Qed.

Lemma days_before_year_century Y :
  (Y * 365 + Y / 4 - Y / 100 + Y / 400) mod 7
  = (Y mod 100 + (Y mod 100) / 4 + (Y / 100) / 4 + 5 * (Y / 100)) mod 7.
Proof. Z.div_mod_to_equations. lia. Qed.

Lemma weekday_zeller d : valid d = true -> weekday d = zeller_weekday d.
Proof.
  intros H. destruct (valid_fields d H) as (_ & Hm & _).
  unfold weekday, zeller_weekday, toordinal, _ymd2ord, _days_before_month.
  destruct d as [y m dd]; cbn [datetime.year datetime.month day] in *.
  pose proof (days_before_year_succ y) as Hs.
  pose proof (days_before_year_century y) as Hc.
  pose proof (days_before_year_century (y - 1)) as Hc'.
  unfold _days_before_year in *. replace (y + 1 - 1) with y in Hs by lia.
  each_month m Hm; eval_index; eval_tests;
    cbn [Z.add Pos.add Pos.succ Z.mul Pos.mul] in *;
    destruct (_is_leap y); Z.div_mod_to_equations; lia.
Qed.

Lemma weekday_range d : 0 <= weekday d <= 6.
Proof. unfold weekday. pose proof (Z.mod_pos_bound (toordinal d + 6) 7). lia. Qed.

(* Day numbers count days: the next calendar day has the next number,
   hence the next weekday. *)
Lemma toordinal_tomorrow d :
  valid d = true -> toordinal (tomorrow d) = toordinal d + 1.
Proof.
  intros H. destruct (valid_fields d H) as (_ & Hm & Hd).
  destruct d as [y m dd]; cbn [datetime.year datetime.month day] in *.
  unfold tomorrow. cbn [datetime.year datetime.month day].
  destruct (Z.ltb_spec dd (_days_in_month y m)) as [Hlt|Hge].
  - unfold toordinal, _ymd2ord. cbn [datetime.year datetime.month day]. lia.
  - assert (dd = _days_in_month y m) as -> by lia. clear Hd Hge.
    destruct (Z.ltb_spec m 12) as [Hm12|Hm12];
      unfold toordinal; cbn [datetime.year datetime.month day].
    + unfold _ymd2ord, _days_before_month, _days_in_month.
      each_month m Hm; try lia; destruct (_is_leap y);
        eval_sums; eval_index; eval_tests; lia.
    + assert (m = 12) as -> by lia.
      rewrite ymd2ord_jan1, days_before_year_succ.
      unfold _ymd2ord, _days_before_month, _days_in_month.
      destruct (_is_leap y); eval_index; eval_tests; lia.
Qed.

Lemma weekday_tomorrow d :
  valid d = true -> weekday (tomorrow d) = (weekday d + 1) mod 7.
Proof.
  intros H. unfold weekday. rewrite (toordinal_tomorrow d H).
  Z.div_mod_to_equations. lia.
Qed.

Lemma iso_weekday_weekday d :
  iso_weekday (isocalendar d) = weekday d + 1.
Proof.
  unfold isocalendar, weekday, toordinal. cbv zeta.
  set (t := _ymd2ord _ _ _). set (y := datetime.year d). clearbody t y.
  destruct (isoweek1monday_spec y) as [_ Hm].
  destruct (isoweek1monday_spec (y - 1)) as [_ Hm'].
  destruct (_ <? 0); [|destruct (_ && _)]; cbn [iso_weekday];
    Z.div_mod_to_equations; lia.
Qed.

Lemma iso_year_window d :
  valid d = true ->
  let c := isocalendar d in
  (iso_year c = datetime.year d)
  \/ (iso_year c = datetime.year d - 1 /\ datetime.month d = 1 /\ day d <= 3
      /\ 52 <= week c)
  \/ (iso_year c = datetime.year d + 1 /\ datetime.month d = 12 /\ 29 <= day d
      /\ week c = 1).
Proof.
  intros H. pose proof (toordinal_in_year d H) as Hin.
  destruct (valid_fields d H) as (_ & Hm & Hd).
  unfold isocalendar. cbv zeta. unfold toordinal in *. clear H.
  destruct d as [y m dd]; cbn [datetime.year datetime.month day] in *.
  assert (Hdoy : _ymd2ord y m dd
                 = _days_before_year y + (_days_before_month y m + dd))
    by (unfold _ymd2ord; lia).
  assert (Hjan : _days_before_month y m + dd <= 3 -> m = 1 /\ dd <= 3).
  { unfold _days_before_month.
    each_month m Hm; destruct (_is_leap y); eval_index; eval_tests; lia. }
  assert (Hdec : 363 + (if _is_leap y then 1 else 0)
                 <= _days_before_month y m + dd -> m = 12 /\ 29 <= dd).
  { unfold _days_before_month, _days_in_month in *.
    each_month m Hm; destruct (_is_leap y); eval_index; eval_tests; lia. }
  set (t := _ymd2ord _ _ _) in *.
  set (doy := _days_before_month _ _ + dd) in *. clearbody t doy.
  destruct (Z.ltb_spec ((t - _isoweek1monday y) / 7) 0) as [Hw|Hw];
    [|destruct (Z.leb_spec 52 ((t - _isoweek1monday y) / 7)) as [Hw2|Hw2];
      [destruct (Z.leb_spec (_isoweek1monday (y + 1)) t) as [Hw3|Hw3]|]];
    cbn [andb iso_year week].
  - right; left. calendar_facts y.
    assert (doy <= 3) by (Z.div_mod_to_equations; lia).
    split; [reflexivity|]. split; [tauto|]. split; [tauto|].
    Z.div_mod_to_equations; lia.
  - right; right. calendar_facts y.
    assert (363 + (if _is_leap y then 1 else 0) <= doy) by lia.
    split; [reflexivity|]. split; [tauto|]. split; [tauto|]. reflexivity.
  - left; reflexivity.
  - left; reflexivity.
Qed.

Lemma iso8601_week_same_monday d1 d2 Y w :
  toordinal d1 - weekday d1 = toordinal d2 - weekday d2 ->
  iso8601_week d1 Y w = iso8601_week d2 Y w.
Proof. unfold iso8601_week. cbv zeta. intros ->. reflexivity. Qed.

Lemma same_week_same_number d1 d2 :
  valid d1 = true -> valid d2 = true ->
  toordinal d1 - weekday d1 = toordinal d2 - weekday d2 ->
  week (isocalendar d1) = week (isocalendar d2)
  /\ iso_year (isocalendar d1) = iso_year (isocalendar d2).
Proof.
  intros H1 H2 Hm.
  pose proof (isocalendar_iso8601 d1 H1) as I1.
  pose proof (isocalendar_iso8601 d2 H2) as I2.
  rewrite (iso8601_week_same_monday d1 d2 _ _ Hm) in I1.
  destruct (iso8601_week_unique _ _ _ _ _ I1 I2). auto.
Qed.

Lemma days_in_month_bounds y m : 1 <= m <= 12 -> 28 <= _days_in_month y m <= 31.
Proof.
  intros Hm. unfold _days_in_month.
  each_month m Hm; destruct (_is_leap y); eval_index; eval_tests; lia.
Qed.

Lemma valid_intro y m dd :
  1 <= y <= 9999 -> 1 <= m <= 12 -> 1 <= dd <= _days_in_month y m ->
  valid (mkdate y m dd) = true.
Proof.
  intros. unfold valid, MINYEAR, MAXYEAR. cbn [datetime.year datetime.month day].
  rewrite !andb_true_iff, !Z.leb_le. lia.
Qed.

Lemma valid_tomorrow d :
  valid d = true -> d <> mkdate 9999 12 31 -> valid (tomorrow d) = true.
Proof.
  intros H Hlast. destruct (valid_fields d H) as (Hy & Hm & Hd).
  destruct d as [y m dd]; cbn [datetime.year datetime.month day] in *.
  unfold tomorrow. cbn [datetime.year datetime.month day].
  destruct (Z.ltb_spec dd (_days_in_month y m)) as [Hlt|Hge].
  - apply valid_intro; lia.
  - destruct (Z.ltb_spec m 12) as [Hm12|Hm12].
    + pose proof (days_in_month_bounds y (m + 1) ltac:(lia)).
      apply valid_intro; lia.
    + assert (m = 12) as -> by lia.
      assert (dd = 31) as ->.
      { unfold _days_in_month in *. eval_index. eval_tests. lia. }
      assert (y <> 9999) by (intros ->; apply Hlast; reflexivity).
      pose proof (days_in_month_bounds (y + 1) 1 ltac:(lia)).
      apply valid_intro; lia.
Qed.

Lemma iso8601_week_next d d' Y w Y' w' :
  iso8601_week d Y w = true -> iso8601_week d' Y' w' = true ->
  toordinal d' - weekday d' = toordinal d - weekday d + 7 ->
  w' = w + 1 \/ w' = 1.
Proof.
  unfold iso8601_week. cbv zeta. intros I I' Hm. rewrite Hm in I'.
  rewrite !andb_true_iff, !Z.ltb_lt, !Z.leb_le, !Z.eqb_eq in I, I'.
  set (m := toordinal d - weekday d) in *. clearbody m.
  destruct I as [[L U] E]. destruct I' as [[L' U'] E'].
  destruct (Z.lt_trichotomy Y Y') as [Hlt|[Heq|Hgt]].
  - right. pose proof (days_before_year_mono (Y + 1) Y' ltac:(lia)).
    Z.div_mod_to_equations; lia.
  - left. subst Y'. Z.div_mod_to_equations; lia.
  - exfalso. pose proof (days_before_year_mono (Y' + 1) Y ltac:(lia)). lia.
Qed.

Lemma week_tomorrow d :
  valid d = true -> d <> mkdate 9999 12 31 ->
  (weekday d < 6 -> week (isocalendar (tomorrow d)) = week (isocalendar d))
  /\ (weekday d = 6 ->
      week (isocalendar (tomorrow d)) = week (isocalendar d) + 1
      \/ week (isocalendar (tomorrow d)) = 1).
Proof.
  intros H Hlast. pose proof (valid_tomorrow d H Hlast) as H'.
  pose proof (toordinal_tomorrow d H) as Ht.
  pose proof (weekday_tomorrow d H) as Hwd.
  pose proof (weekday_range d) as Hr.
  split.
  - intros Hlt.
    assert (Hm : toordinal (tomorrow d) - weekday (tomorrow d)
                 = toordinal d - weekday d).
    { rewrite Ht, Hwd. Z.div_mod_to_equations. lia. }
    exact (proj1 (same_week_same_number _ _ H' H Hm)).
  - intros Hsun.
    assert (Hm : toordinal (tomorrow d) - weekday (tomorrow d)
                 = toordinal d - weekday d + 7).
    { rewrite Ht, Hwd, Hsun. change ((6 + 1) mod 7) with 0. lia. }
    exact (iso8601_week_next d (tomorrow d) _ _ _ _
             (isocalendar_iso8601 d H) (isocalendar_iso8601 _ H') Hm).
Qed.

Lemma same_week_number_close Y1 Y2 th1 th2 w :
  _days_before_year Y1 < th1 <= _days_before_year (Y1 + 1) ->
  _days_before_year Y2 < th2 <= _days_before_year (Y2 + 1) ->
  w = (th1 - _days_before_year Y1 - 1) / 7 + 1 ->
  w = (th2 - _days_before_year Y2 - 1) / 7 + 1 ->
  -30 <= th1 - th2 <= 30 -> (th1 - th2) mod 7 = 0 ->
  th1 = th2.
Proof.
  intros B1 B2 E1 E2 Hc Hm.
  pose proof (days_before_year_succ Y1) as S1.
  pose proof (days_before_year_succ Y2) as S2.
  pose proof (bool_01 (_is_leap Y1)). pose proof (bool_01 (_is_leap Y2)).
  destruct (Z.lt_trichotomy Y1 Y2) as [Hlt|[Heq|Hgt]].
  - pose proof (days_before_year_mono (Y1 + 1) Y2 ltac:(lia)).
    Z.div_mod_to_equations; lia.
  - subst Y2. Z.div_mod_to_equations; lia.
  - pose proof (days_before_year_mono (Y2 + 1) Y1 ltac:(lia)).
    Z.div_mod_to_equations; lia.
Qed.

Lemma iso8601_week_bounds d Y w :
  iso8601_week d Y w = true ->
  let th := toordinal d - weekday d + 3 in
  _days_before_year Y < th <= _days_before_year (Y + 1)
  /\ w = (th - _days_before_year Y - 1) / 7 + 1.
Proof.
  unfold iso8601_week. cbv zeta.
  rewrite !andb_true_iff, !Z.ltb_lt, !Z.leb_le, !Z.eqb_eq. tauto.
Qed.

Lemma features_determine_date d1 d2 :
  valid d1 = true -> valid d2 = true ->
  datetime.year d1 = datetime.year d2 ->
  datetime.month d1 = datetime.month d2 ->
  weekday d1 = weekday d2 ->
  week (isocalendar d1) = week (isocalendar d2) ->
  d1 = d2.
Proof.
  intros H1 H2 Hy Hm Hwd Hw.
  destruct (iso8601_week_bounds _ _ _ (isocalendar_iso8601 d1 H1)) as [B1 E1].
  destruct (iso8601_week_bounds _ _ _ (isocalendar_iso8601 d2 H2)) as [B2 E2].
  cbv zeta in *. rewrite <- Hw in E2. rewrite <- Hwd in B2, E2.
  destruct (valid_fields d1 H1) as (_ & Hm1 & Hd1).
  destruct (valid_fields d2 H2) as (_ & Hm2 & Hd2).
  pose proof (days_in_month_bounds (datetime.year d1) _ Hm1).
  pose proof (days_in_month_bounds (datetime.year d2) _ Hm2).
  assert (Ht : toordinal d1 - toordinal d2 = day d1 - day d2).
  { unfold toordinal, _ymd2ord. rewrite Hy, Hm. lia. }
  assert (Hmod : (toordinal d1 - toordinal d2) mod 7 = 0).
  { unfold weekday in Hwd. Z.div_mod_to_equations; lia. }
  assert (toordinal d1 - weekday d1 + 3 = toordinal d2 - weekday d1 + 3).
  { apply (same_week_number_close _ _ _ _ _ B1 B2 E1 E2).
    - lia.
    - replace (toordinal d1 - weekday d1 + 3 - (toordinal d2 - weekday d1 + 3))
        with (toordinal d1 - toordinal d2) by lia. exact Hmod. }
  destruct d1 as [y1 m1 dd1], d2 as [y2 m2 dd2];
    cbn [datetime.year datetime.month day] in *.
  f_equal; lia.
Qed.

End CalendarFacts.

(** ** The feature record *)

Example features_2024_12_30 :
  build_features (Some "patient_a") date_2024_12_30
  = mkFeatureRecord (Some "patient_a") 2024 12 0 1 4.
Proof. reflexivity. Qed.

(* Early January can belong to the last week of the year before. *)
Example isocalendar_2021_01_01 :
  datetime.isocalendar (datetime.mkdate 2021 1 1) = datetime.mkiso 2020 53 5.
Proof. reflexivity. Qed.

(* A leap day, and a year whose week 1 starts in December. *)
Example features_2024_02_29 :
  build_features None (datetime.mkdate 2024 2 29)
  = mkFeatureRecord None 2024 2 3 9 1.
Proof. reflexivity. Qed.

(* The [year] column stays the calendar year of the date even when
   its ISO week belongs to the next year. *)
Example year_column_2024_12_30 :
  year (build_features None date_2024_12_30) = 2024
  /\ datetime.isocalendar date_2024_12_30 = datetime.mkiso 2025 1 1.
Proof. split; reflexivity. Qed.

(** C4: for every valid date [d] and patient [p], the quarter field of the
    record built from [(p, d)] equals [((d.month - 1) // 3) + 1]; over the
    months 1 to 12 this is the table 1,1,1,2,2,2,3,3,3,4,4,4. *)
Theorem quarter_formula (p : option string) (d : datetime.date) :
  datetime.valid d = true ->
  quarter (build_features p d) = (datetime.month d - 1) / 3 + 1
  /\ quarter (build_features p d)
     = nth (Z.to_nat (datetime.month d - 1)) quarter_of_month 0.
Proof.
  intros H. destruct (CalendarFacts.valid_fields d H) as (_ & Hm & _).
  split; [reflexivity|]. cbn [build_features quarter].
  CalendarFacts.each_month (datetime.month d) Hm; reflexivity.
Qed.

Lemma quarter_formula_witness :
  datetime.valid date_2024_12_30 = true
  /\ quarter (build_features (Some "patient_b") date_2024_12_30) = 4.
Proof.
  split; [reflexivity|].
  exact (proj1 (quarter_formula (Some "patient_b") date_2024_12_30 eq_refl)).
Defined.

(** C5: for every valid date, the day_of_week field lies in [0,6] and is the
    date's actual weekday with Monday = 0 and Sunday = 6: it agrees with
    Zeller's congruence, and it advances by one (modulo 7) from a day to
    the next. *)
Theorem day_of_week_actual (p : option string) (d : datetime.date) :
  datetime.valid d = true ->
  0 <= day_of_week (build_features p d) <= 6
  /\ day_of_week (build_features p d) = zeller_weekday d
  /\ day_of_week (build_features p (tomorrow d))
     = (day_of_week (build_features p d) + 1) mod 7.
Proof.
  intros H. cbn [build_features day_of_week].
  split; [apply CalendarFacts.weekday_range|].
  split; [apply CalendarFacts.weekday_zeller, H|].
  apply CalendarFacts.weekday_tomorrow, H.
Qed.

Lemma day_of_week_actual_witness :
  datetime.valid date_2024_12_30 = true
  /\ day_of_week (build_features None date_2024_12_30) = 0
  /\ day_of_week (build_features None (datetime.mkdate 2024 12 31)) = 1.
Proof.
  split; [reflexivity|].
  pose proof (day_of_week_actual None date_2024_12_30 eq_refl)
    as (_ & Hz & Ht).
  split; [exact Hz | exact Ht].
Defined.

(* Sunday is 6: 2025-11-30 was a Sunday, 2000-01-01 a Saturday. *)
Example sunday_is_6 :
  day_of_week (build_features None (datetime.mkdate 2025 11 30)) = 6
  /\ day_of_week (build_features None (datetime.mkdate 2000 1 1)) = 5.
Proof. split; reflexivity. Qed.

(** C2: the week_of_year field uses ISO-8601 week numbering (weeks start on
    Monday, week 1 holds the year's first Thursday); for 2024-12-30 the
    field is 1 and the ISO calendar attributes the date to the following
    year, 2025. *)
Theorem week_of_year_iso8601 (p : option string) (d : datetime.date) :
  datetime.valid d = true ->
  iso8601_week d (datetime.iso_year (datetime.isocalendar d))
                 (week_of_year (build_features p d)) = true
  /\ (d = date_2024_12_30 ->
      week_of_year (build_features p d) = 1
      /\ datetime.iso_year (datetime.isocalendar d) = datetime.year d + 1
      /\ datetime.iso_year (datetime.isocalendar d) = 2025).
Proof.
  intros H. split.
  - exact (CalendarFacts.isocalendar_iso8601 d H).
  - intros ->. repeat split.
Qed.

Lemma week_of_year_iso8601_witness :
  datetime.valid date_2024_12_30 = true
  /\ iso8601_week date_2024_12_30 2025 1 = true
  /\ week_of_year (build_features (Some "patient_a") date_2024_12_30) = 1.
Proof.
  split; [reflexivity|].
  pose proof (week_of_year_iso8601 (Some "patient_a") date_2024_12_30 eq_refl)
    as [Hiso Hat].
  split; [exact Hiso | exact (proj1 (Hat eq_refl))].
Defined.

(** C9: for every valid date, month is in 1..12, week_of_year is in 1..53
    and quarter is in 1..4. *)
Theorem field_ranges (p : option string) (d : datetime.date) :
  datetime.valid d = true ->
  1 <= month (build_features p d) <= 12
  /\ 1 <= week_of_year (build_features p d) <= 53
  /\ 1 <= quarter (build_features p d) <= 4.
Proof.
  intros H. destruct (CalendarFacts.valid_fields d H) as (_ & Hm & _).
  cbn [build_features month week_of_year quarter].
  split; [exact Hm|]. split.
  - exact (CalendarFacts.iso8601_week_range d _ _
             (CalendarFacts.isocalendar_iso8601 d H)).
  - Z.div_mod_to_equations. lia.
Qed.

Lemma field_ranges_witness :
  datetime.valid (datetime.mkdate 2021 1 1) = true
  /\ 1 <= week_of_year (build_features None (datetime.mkdate 2021 1 1)) <= 53.
Proof.
  split; [reflexivity|].
  exact (proj1 (proj2 (field_ranges None (datetime.mkdate 2021 1 1) eq_refl))).
Defined.

(* Both ends of the week range occur. *)
Example week_53_and_week_1 :
  week_of_year (build_features None (datetime.mkdate 2020 12 31)) = 53
  /\ week_of_year (build_features None (datetime.mkdate 2025 1 1)) = 1.
Proof. split; reflexivity. Qed.

(** C10: the calendar-derived fields do not depend on the patient: for the
    same date, the records of two patients agree on year, month,
    day_of_week, week_of_year and quarter, and differ in the patient field
    only. *)
Theorem calendar_fields_ignore_patient (p1 p2 : option string)
                                       (d : datetime.date) :
  year (build_features p1 d) = year (build_features p2 d)
  /\ month (build_features p1 d) = month (build_features p2 d)
  /\ day_of_week (build_features p1 d) = day_of_week (build_features p2 d)
  /\ week_of_year (build_features p1 d) = week_of_year (build_features p2 d)
  /\ quarter (build_features p1 d) = quarter (build_features p2 d)
  /\ PATIENT_NAME (build_features p1 d) = p1
  /\ PATIENT_NAME (build_features p2 d) = p2.
Proof. repeat split. Qed.

(** C8: feature building is deterministic: runs of the page that selected
    the same patient and date build equal records, whatever roster,
    pipeline, clock, page state or earlier pipeline calls they had; the
    record is a function of (patient, date), and building it leaves the
    record of pipeline calls untouched. *)
Theorem input_data_deterministic (s1 s2 : Session)
                                 (calls1 calls2 : list FeatureRecord) :
  selected_patient s1 = selected_patient s2 ->
  selected_date s1 = selected_date s2 ->
  snd (input_data (selected_patient s1) (selected_date s1) calls1)
  = snd (input_data (selected_patient s2) (selected_date s2) calls2)
  /\ snd (input_data (selected_patient s1) (selected_date s1) calls1)
     = Ok (build_features (selected_patient s1) (selected_date s1))
  /\ fst (input_data (selected_patient s1) (selected_date s1) calls1) = calls1.
Proof.
  intros Hp Hd. rewrite Hp, Hd. repeat split.
Qed.

Lemma input_data_deterministic_witness :
  selected_patient session_a = selected_patient session_b
  /\ selected_date session_a = selected_date session_b
  /\ snd (input_data (selected_patient session_a) (selected_date session_a) [])
     = snd (input_data (selected_patient session_b) (selected_date session_b)
              [build_features None date_2024_12_30]).
Proof.
  split; [reflexivity|]. split; [reflexivity|].
  exact (proj1 (input_data_deterministic session_a session_b [] _
                  eq_refl eq_refl)).
Defined.

(** ** The roster *)

(* C3 as stated fails: with roster {patient_a, patient_b}, building the
   features for "unknown_patient" gives a record, not InvalidPatientError. *)
Lemma unknown_patient_builds_a_record :
  let roster := ["patient_a"; "patient_b"] in
  ~ In "unknown_patient" roster
  /\ snd (input_data (Some "unknown_patient") date_2024_12_30 [])
     = Ok (mkFeatureRecord (Some "unknown_patient") 2024 12 0 1 4)
  /\ snd (input_data (Some "unknown_patient") date_2024_12_30 [])
     <> Raise (Exn "InvalidPatientError").
Proof.
  cbv zeta. split; [|split].
  - cbn [In]. intros [H|[H|[]]]; discriminate H.
  - reflexivity.
  - discriminate.
Qed.

(** C3 (amended): feature building checks no roster and never fails: for
    every patient value, in the roster or not, it yields the record carrying
    that value.  Names outside the roster are kept out by the select box
    alone, which only returns members of the roster. *)
Theorem input_data_accepts_any_patient (roster : list string)
    (p : option string) (d : datetime.date) (calls : list FeatureRecord) :
  input_data p d calls = (calls, Ok (build_features p d))
  /\ PATIENT_NAME (build_features p d) = p
  /\ (forall choice name,
        selectbox roster choice = Some name -> In name roster).
Proof.
  split; [reflexivity|]. split; [reflexivity|].
  intros choice name H. exact (nth_error_In roster choice H).
Qed.

Lemma input_data_accepts_any_patient_witness :
  snd (input_data (Some "unknown_patient") date_2024_12_30 [X0])
  = Ok (build_features (Some "unknown_patient") date_2024_12_30)
  /\ In "patient_b" ["patient_a"; "patient_b"].
Proof.
  pose proof (input_data_accepts_any_patient ["patient_a"; "patient_b"]
                (Some "unknown_patient") date_2024_12_30 [X0])
    as (Hrun & _ & Hbox).
  split.
  - exact (f_equal snd Hrun).
  - exact (Hbox 1%nat "patient_b" eq_refl).
Defined.

(* On an empty roster the select box yields None, and the record is built
   with it all the same. *)
Example empty_roster :
  selectbox [] 0 = None
  /\ snd (input_data (selectbox [] 0) date_2024_12_30 [])
     = Ok (mkFeatureRecord None 2024 12 0 1 4).
Proof. split; reflexivity. Qed.

(** ** Rounding *)

Module RoundFacts.

Lemma round_half_even_nonneg m e : 0 <= round_half_even m e.
Proof.
  unfold round_half_even. destruct (Z.leb_spec 0 e) as [He|He].
  - pose proof (Z.pow_nonneg 2 e ltac:(lia)). nia.
  - cbv zeta. assert (Hd : 0 < 2 ^ (- e)) by (apply Z.pow_pos_nonneg; lia).
    pose proof (Z.div_pos (Z.pos m) (2 ^ (- e)) ltac:(lia) Hd).
    destruct (2 * (Z.pos m mod 2 ^ (- e)) ?= 2 ^ (- e));
      [destruct (Z.even _)|..]; lia.
Qed.

(* With [d = 2^(-e)] as common denominator: the result is within one
   half of [m / d], and even when exactly one half away. *)
Lemma round_half_even_scaled m e :
  e < 0 ->
  let d := 2 ^ (- e) in
  let n := round_half_even m e in
  2 * Z.abs (Z.pos m - n * d) <= d
  /\ (2 * Z.abs (Z.pos m - n * d) = d -> Z.even n = true).
Proof.
  intros He d n. subst n. unfold round_half_even.
  destruct (Z.leb_spec 0 e) as [?|_]; [lia|]. fold d. cbv zeta.
  assert (Hd : 0 < d) by (apply Z.pow_pos_nonneg; lia).
  pose proof (Z.div_mod (Z.pos m) d ltac:(lia)) as Hqr.
  pose proof (Z.mod_pos_bound (Z.pos m) d Hd) as Hr.
  set (q := Z.pos m / d) in *. set (r := Z.pos m mod d) in *.
  assert (Hodd : Z.even q = false -> Z.even (q + 1) = true).
  { intros E. rewrite Z.even_add, E. reflexivity. }
  destruct (Z.compare_spec (2 * r) d) as [E|L|G].
  - destruct (Z.even q) eqn:Eq; (split; [nia|auto]).
  - split; [nia|]. intros; exfalso; nia.
  - split; [nia|]. intros; exfalso; nia.
Qed.

(* [round] on a real float: a nearest integer, the even one at a tie. *)
Lemma nearest_even_spec x :
  (Qabs (SF2Q x - inject_Z (nearest_even x)) <= 1 # 2)%Q
  /\ (Qabs (SF2Q x - inject_Z (nearest_even x)) == 1 # 2
      -> Z.even (nearest_even x) = true)%Q.
Proof.
  destruct x as [s|s| |s m e]; cbn [nearest_even SF2Q];
    try (split; [discriminate | intros H; discriminate H]).
  destruct (Z.leb_spec 0 e) as [He|He].
  - assert (R : round_half_even m e = Z.pos m * 2 ^ e).
    { unfold round_half_even. destruct (Z.leb_spec 0 e); [reflexivity|lia]. }
    rewrite R.
    assert (Z0 : (inject_Z (cond_Zopp s (Z.pos m) * 2 ^ e)
                  - inject_Z (cond_Zopp s (Z.pos m * 2 ^ e)) == 0)%Q).
    { destruct s; cbn [cond_Zopp];
        unfold Qeq, Qminus, Qplus, Qopp, inject_Z; cbn [Qnum Qden]; lia. }
    rewrite Z0. split; [discriminate | intros H; discriminate H].
  - pose proof (round_half_even_scaled m e He) as [Hn Ht]. cbv zeta in *.
    set (d := 2 ^ (- e)) in *. set (n := round_half_even m e) in *.
    assert (Hd : 0 < d) by (apply Z.pow_pos_nonneg; lia).
    assert (Hdp : Z.pos (Z.to_pos d) = d) by (apply Z2Pos.id; lia).
    assert (Heven : Z.even (cond_Zopp s n) = Z.even n).
    { destruct s; cbn [cond_Zopp]; [apply Z.even_opp | reflexivity]. }
    assert (Habs : Z.abs (cond_Zopp s (Z.pos m) * 1 + - cond_Zopp s n * d)
                   = Z.abs (Z.pos m - n * d)).
    { destruct s; cbn [cond_Zopp]; lia. }
    unfold Qle, Qeq, Qabs, Qminus, Qplus, Qopp, inject_Z; cbn [Qnum Qden].
    rewrite Heven, Pos.mul_1_r, Hdp, Habs.
    split; [lia|]. intros; apply Ht; lia.
Qed.

(* A float that is not positive rounds to an integer that is not. *)
Lemma nearest_even_nonpos x : (SF2Q x <= 0)%Q -> nearest_even x <= 0.
Proof.
  destruct x as [s|s| |s m e]; cbn [nearest_even SF2Q]; try lia.
  pose proof (round_half_even_nonneg m e) as Hn.
  destruct s; cbn [cond_Zopp]; [lia|]. intros H. exfalso.
  destruct (Z.leb_spec 0 e) as [He|He].
  - pose proof (Z.pow_pos_nonneg 2 e ltac:(lia) He).
    unfold Qle, inject_Z in H; cbn [Qnum Qden] in H. nia.
  - unfold Qle in H; cbn [Qnum Qden] in H. lia.
Qed.

Lemma py_round_real x :
  is_real x = true -> py_round (PyFloat x) = Ok (nearest_even x).
Proof. destruct x; try discriminate; reflexivity. Qed.

(* A half-way float is a real one. *)
Lemma half_way_real x k :
  (SF2Q x == inject_Z k + (1 # 2))%Q -> is_real x = true.
Proof.
  destruct x as [s|s| |s m e]; try reflexivity; cbn [SF2Q];
    unfold Qeq, Qplus, inject_Z; cbn [Qnum Qden]; lia.
Qed.

(* On [k + 1/2] the result is the even one of [k] and [k + 1]. *)
Lemma nearest_even_half_way x k :
  (SF2Q x == inject_Z k + (1 # 2))%Q -> nearest_even x = half_to_even k.
Proof.
  intros H. destruct (nearest_even_spec x) as [Hn Ht].
  set (n := nearest_even x) in *. clearbody n.
  assert (Hk : n = k \/ n = k + 1).
  { rewrite H in Hn.
    unfold Qle, Qabs, Qminus, Qplus, Qopp, inject_Z in Hn;
      cbn [Qnum Qden] in Hn. lia. }
  assert (He : Z.even n = true).
  { apply Ht. rewrite H.
    unfold Qeq, Qabs, Qminus, Qplus, Qopp, inject_Z; cbn [Qnum Qden].
    lia. }
  unfold half_to_even.
  destruct Hk as [-> | ->].
  - rewrite He. reflexivity.
  - rewrite Z.even_add in He. destruct (Z.even k); [discriminate He|reflexivity].
Qed.

Lemma nearest_even_bounds x :
  (inject_Z (nearest_even x) - (1 # 2) <= SF2Q x
   /\ SF2Q x <= inject_Z (nearest_even x) + (1 # 2))%Q.
Proof.
  destruct (nearest_even_spec x) as [Hn _].
  apply Qabs_Qle_condition in Hn. split; lra.
Qed.

Lemma nearest_even_tie_low x :
  (SF2Q x == inject_Z (nearest_even x) - (1 # 2))%Q ->
  Z.even (nearest_even x) = true.
Proof.
  intros H. apply (proj2 (nearest_even_spec x)).
  assert (E : (SF2Q x - inject_Z (nearest_even x) == - (1 # 2))%Q) by lra.
  rewrite E. reflexivity.
Qed.

Lemma nearest_even_tie_high x :
  (SF2Q x == inject_Z (nearest_even x) + (1 # 2))%Q ->
  Z.even (nearest_even x) = true.
Proof.
  intros H. apply (proj2 (nearest_even_spec x)).
  assert (E : (SF2Q x - inject_Z (nearest_even x) == 1 # 2)%Q) by lra.
  rewrite E. reflexivity.
Qed.

Lemma nearest_even_mono x1 x2 :
  (SF2Q x1 <= SF2Q x2)%Q -> nearest_even x1 <= nearest_even x2.
Proof.
  intros Hle.
  destruct (nearest_even_bounds x1) as [L1 U1].
  destruct (nearest_even_bounds x2) as [L2 U2].
  destruct (Z_le_gt_dec (nearest_even x1) (nearest_even x2)) as [|Hgt];
    [assumption|exfalso].
  assert (Hz : nearest_even x2 + 1 <= nearest_even x1) by lia.
  rewrite Zle_Qle, inject_Z_plus in Hz. change (inject_Z 1) with 1%Q in Hz.
  pose proof (nearest_even_tie_low x1 ltac:(lra)) as E1.
  pose proof (nearest_even_tie_high x2 ltac:(lra)) as E2.
  assert (Heq : nearest_even x1 = nearest_even x2 + 1).
  { apply Z.le_antisymm; [|lia].
    rewrite Zle_Qle, inject_Z_plus. change (inject_Z 1) with 1%Q. lra. }
  rewrite Heq, Z.even_add, E2 in E1. discriminate E1.
Qed.

Lemma nearest_even_integer x k :
  (SF2Q x == inject_Z k)%Q -> nearest_even x = k.
Proof.
  intros H. destruct (nearest_even_bounds x) as [L U].
  rewrite H in L, U.
  assert (inject_Z (nearest_even x) <= inject_Z k + (1#2))%Q by lra.
  assert (inject_Z k <= inject_Z (nearest_even x) + (1#2))%Q by lra.
  unfold Qle, Qplus, inject_Z in *; cbn [Qnum Qden] in *. lia.
Qed.

Lemma nearest_even_nonpos_iff x :
  (SF2Q x <= 1 # 2)%Q <-> nearest_even x <= 0.
Proof.
  destruct (nearest_even_bounds x) as [L U]. split.
  - intros H.
    assert (H1 : nearest_even x <= 1).
    { rewrite Zle_Qle. change (inject_Z 1) with 1%Q. lra. }
    destruct (Z.eq_dec (nearest_even x) 1) as [E|]; [exfalso|lia].
    assert (T : (SF2Q x == inject_Z (nearest_even x) - (1 # 2))%Q).
    { rewrite E in *. change (inject_Z 1) with 1%Q in *. lra. }
    pose proof (nearest_even_tie_low x T) as Hev. rewrite E in Hev.
    discriminate Hev.
  - intros H. rewrite Zle_Qle in H. change (inject_Z 0) with 0%Q in H. lra.
Qed.

End RoundFacts.

(* The two sample floats are binary64 numbers, -3.2 up to the last bit
   and 4.5 exactly. *)
Example sample_floats :
  is_binary64 float_m3_2 = true /\ is_binary64 float_4_5 = true
  /\ (Qabs (SF2Q float_m3_2 - (- (32 # 10))) < 1 # 2 ^ 52)%Q
  /\ (SF2Q float_4_5 == inject_Z 4 + (1 # 2))%Q.
Proof. repeat split. Qed.

Example round_samples :
  py_round (PyFloat float_m3_2) = Ok (-3)
  /\ py_round (PyFloat float_4_5) = Ok 4
  /\ py_round (PyFloat (S754_finite false 11 (-1))) = Ok 6
  /\ py_round (PyFloat (S754_finite true 5 (-1))) = Ok (-2)
  /\ py_round (PyFloat (S754_finite false 5 (-2))) = Ok 1
  /\ py_round (PyFloat S754_nan) = Raise (Exn "ValueError").
Proof. repeat split. Qed.

(** ** The prediction *)

Lemma predict_visits_unfold (pipeline : Scorer) (X : FeatureRecord)
                            (calls : list FeatureRecord) :
  predict_visits pipeline X calls
  = (calls ++ [X],
     match pipeline X with
     | Raise e => Raise e
     | Ok v =>
         match getitem0 v with
         | Raise e => Raise e
         | Ok first =>
             match py_round first with
             | Raise e => Raise e
             | Ok n => Ok (Z.max 0 n)
             end
         end
     end).
Proof.
  unfold predict_visits, bind, predict, lift, ret.
  destruct (pipeline X) as [v|e]; [|reflexivity].
  destruct (getitem0 v) as [first|e]; [|reflexivity].
  destruct (py_round first) as [n|e]; reflexivity.
Qed.

(** C1: for every real-valued scorer output [r], negative ones included, the
    prediction is [max(0, round(r))], where [round(r)] is an integer nearest
    to [r]; the result is a non-negative integer, and it is 0 whenever [r]
    is not positive, as for -3.2. *)
Theorem predict_visits_clamps_and_rounds (pipeline : Scorer)
    (X : FeatureRecord) (r : spec_float) (rest : list pyobj)
    (calls : list FeatureRecord) :
  is_real r = true ->
  pipeline X = Ok (PyArr (PyFloat r :: rest)) ->
  let n := nearest_even r in
  snd (predict_visits pipeline X calls) = Ok (Z.max 0 n)
  /\ 0 <= Z.max 0 n
  /\ (Qabs (SF2Q r - inject_Z n) <= 1 # 2)%Q
  /\ ((SF2Q r <= 0)%Q -> Z.max 0 n = 0).
Proof.
  intros Hr Hp n. rewrite predict_visits_unfold, Hp.
  cbn [snd getitem0]. rewrite (RoundFacts.py_round_real r Hr). fold n.
  split; [reflexivity|]. split; [lia|].
  split; [exact (proj1 (RoundFacts.nearest_even_spec r))|].
  intros Hneg. pose proof (RoundFacts.nearest_even_nonpos r Hneg). lia.
Qed.

Lemma predict_visits_clamps_and_rounds_witness :
  is_real float_m3_2 = true
  /\ snd (predict_visits (fun _ => Ok (PyArr [PyFloat float_m3_2])) X0 [])
     = Ok 0.
Proof.
  split; [reflexivity|].
  exact (proj1 (predict_visits_clamps_and_rounds
                  (fun _ => Ok (PyArr [PyFloat float_m3_2])) X0
                  float_m3_2 [] [] eq_refl eq_refl)).
Defined.

(** C7: rounding follows one tie-break rule throughout: a scorer output of
    4.5 rounds to 4 or 5, and either every half-way output is rounded to
    the even neighbour or every half-way output is rounded away from zero.
    (It is the first: round-half-to-even, so 4.5 gives 4.) *)
Theorem round_tie_break_consistent :
  (py_round (PyFloat float_4_5) = Ok 4 \/ py_round (PyFloat float_4_5) = Ok 5)
  /\ ((forall x k, (SF2Q x == inject_Z k + (1 # 2))%Q ->
                   py_round (PyFloat x) = Ok (half_to_even k))
      \/ (forall x k, (SF2Q x == inject_Z k + (1 # 2))%Q ->
                      py_round (PyFloat x) = Ok (half_away_from_zero k))).
Proof.
  split; [left; reflexivity|]. left. intros x k H.
  rewrite (RoundFacts.py_round_real x (RoundFacts.half_way_real x k H)).
  f_equal. exact (RoundFacts.nearest_even_half_way x k H).
Qed.

Lemma round_tie_break_consistent_witness :
  py_round (PyFloat float_4_5) = Ok (half_to_even 4)
  \/ py_round (PyFloat float_4_5) = Ok (half_away_from_zero 4).
Proof.
  destruct (proj2 round_tie_break_consistent) as [Heven | Haway].
  - left. apply Heven. reflexivity.
  - right. apply Haway. reflexivity.
Defined.

(* The rule is not round-half-away-from-zero: 4.5 gives 4, not 5. *)
Example round_4_5_is_not_away :
  py_round (PyFloat float_4_5) = Ok 4 /\ half_away_from_zero 4 = 5.
Proof. split; reflexivity. Qed.

(* C6 as stated fails: the failure of the scorer is not turned into a
   ScoringError.  An exception of the scorer comes out as it is, and a
   non-numeric prediction fails in [round] with a TypeError. *)
Lemma scorer_failure_is_not_ScoringError :
  snd (predict_visits (fun _ => Raise (Exn "RuntimeError")) X0 [])
  = Raise (Exn "RuntimeError")
  /\ snd (predict_visits (fun _ => Raise (Exn "RuntimeError")) X0 [])
     <> Raise (Exn "ScoringError")
  /\ numeric (PyArr [PyStr "many"]) = false
  /\ snd (predict_visits (fun _ => Ok (PyArr [PyStr "many"])) X0 [])
     = Raise (Exn "TypeError")
  /\ snd (predict_visits (fun _ => Ok (PyArr [PyStr "many"])) X0 [])
     <> Raise (Exn "ScoringError").
Proof. repeat split; discriminate. Qed.

(** C6 (amended): the prediction fails when the scorer raises, and when
    [[0]] or [round] raises on the value it returned, as they do on
    non-numeric values such as None, an array of strings or an array of
    None (TypeError).  The exception is the one that was raised, passed on
    unchanged and not wrapped into a ScoringError.  In every case the scorer
    has been called exactly once, on the given frame: there is no retry. *)
Theorem predict_visits_failures (pipeline : Scorer) (X : FeatureRecord)
                                (calls : list FeatureRecord) :
  fst (predict_visits pipeline X calls) = calls ++ [X]
  /\ (forall e, pipeline X = Raise e ->
                snd (predict_visits pipeline X calls) = Raise e)
  /\ (forall v e, pipeline X = Ok v -> getitem0 v = Raise e ->
                  snd (predict_visits pipeline X calls) = Raise e)
  /\ (forall v first e,
        pipeline X = Ok v -> getitem0 v = Ok first ->
        py_round first = Raise e ->
        snd (predict_visits pipeline X calls) = Raise e)
  /\ (forall v,
        pipeline X = Ok v ->
        v = PyNone
        \/ (exists s rest, v = PyArr (PyStr s :: rest))
        \/ (exists rest, v = PyArr (PyNone :: rest)) ->
        snd (predict_visits pipeline X calls) = Raise (Exn "TypeError")).
Proof.
  rewrite predict_visits_unfold. cbn [fst snd].
  split; [reflexivity|]. split; [|split; [|split]].
  - intros e ->. reflexivity.
  - intros v e -> ->. reflexivity.
  - intros v first e -> -> ->. reflexivity.
  - intros v -> [-> | [[s [rest ->]] | [rest ->]]]; reflexivity.
Qed.

Lemma predict_visits_failures_witness :
  snd (predict_visits (fun _ => Raise (Exn "RuntimeError")) X0 [])
  = Raise (Exn "RuntimeError")
  /\ fst (predict_visits (fun _ => Raise (Exn "RuntimeError")) X0 []) = [X0].
Proof.
  pose proof (predict_visits_failures
                (fun _ => Raise (Exn "RuntimeError")) X0 []) as (Hc & Hr & _).
  split; [exact (Hr _ eq_refl) | exact Hc].
Defined.

(** X5: when the pipeline returns an array whose first item is an int or a
    real float, the prediction succeeds, with a count that is not
    negative. *)
Lemma predict_visits_numeric (pipeline : Scorer) (X : FeatureRecord)
                             (calls : list FeatureRecord) (v : pyobj) :
  pipeline X = Ok v -> numeric v = true ->
  exists n, snd (predict_visits pipeline X calls) = Ok n /\ 0 <= n.
Proof.
  intros Hp Hv. rewrite predict_visits_unfold, Hp. cbn [snd].
  destruct v as [ |n|x|s|[|first rest]]; try discriminate Hv.
  destruct first as [ |n|x|s|items]; try discriminate Hv; cbn [getitem0].
  - exists (Z.max 0 n). split; [reflexivity | lia].
  - cbn [numeric] in Hv. rewrite (RoundFacts.py_round_real x Hv).
    exists (Z.max 0 (nearest_even x)). split; [reflexivity | lia].
Qed.

Lemma predict_visits_numeric_witness :
  numeric (PyArr [PyInt (-4); PyNone]) = true
  /\ exists n,
       snd (predict_visits (fun _ => Ok (PyArr [PyInt (-4); PyNone])) X0 [])
       = Ok n
       /\ 0 <= n.
Proof.
  split; [reflexivity|].
  exact (predict_visits_numeric
           (fun _ => Ok (PyArr [PyInt (-4); PyNone])) X0 []
           (PyArr [PyInt (-4); PyNone]) eq_refl eq_refl).
Defined.

(** ** The page *)

(** X1: one run of the page calls the pipeline at most once: exactly once,
    on the frame built from the selected patient and date, when the button
    was pressed on the prediction page, and not at all otherwise. *)
Lemma app_calls (s : Session) (calls : list FeatureRecord) :
  fst (app s calls)
  = match page s, button s with
    | Prediction, true =>
        calls ++ [build_features (selected_patient s) (selected_date s)]
    | _, _ => calls
    end.
Proof.
  unfold app. destruct (page s), (button s); try reflexivity.
  unfold bind, input_data, ret.
  rewrite predict_visits_unfold.
  destruct (pipeline s _) as [v|e]; [|reflexivity].
  destruct (getitem0 v) as [first|e]; [|reflexivity].
  destruct (py_round first) as [n|e]; reflexivity.
Qed.

(** X2: whatever count the page shows is shown for the selected patient
    and the selected date, and it is not negative, for every pipeline. *)
Lemma app_output (s : Session) (calls : list FeatureRecord)
                 (p : option string) (d : datetime.date) (n : Z) :
  snd (app s calls) = Ok (PredictedVisitCount p d n) ->
  p = selected_patient s /\ d = selected_date s /\ 0 <= n.
Proof.
  unfold app. destruct (page s), (button s); try discriminate.
  unfold bind, input_data, ret. rewrite predict_visits_unfold.
  destruct (pipeline s _) as [v|e]; [|discriminate].
  destruct (getitem0 v) as [first|e]; [|discriminate].
  destruct (py_round first) as [k|e]; [|discriminate].
  cbn [snd]. intros [= <- <- <-]. repeat split. lia.
Qed.

Lemma app_output_witness :
  snd (app session_d [])
  = Ok (PredictedVisitCount (Some "patient_a") (datetime.mkdate 2025 1 1) 2)
  /\ Some "patient_a" = selected_patient session_d
  /\ 0 <= 2.
Proof.
  split; [reflexivity|].
  pose proof (app_output session_d [] (Some "patient_a")
                (datetime.mkdate 2025 1 1) 2 eq_refl) as (Hp & _ & Hn).
  split; [exact Hp | exact Hn].
Defined.

Example app_session_a :
  app session_a []
  = ([mkFeatureRecord (Some "patient_b") 2024 12 0 1 4],
     Ok (PredictedVisitCount (Some "patient_b") date_2024_12_30 0)).
Proof. reflexivity. Qed.

(** ** More on the page *)

Lemma predict_visits_real (pipeline : Scorer) (X : FeatureRecord)
    (r : spec_float) (rest : list pyobj) (calls : list FeatureRecord) :
  is_real r = true ->
  pipeline X = Ok (PyArr (PyFloat r :: rest)) ->
  predict_visits pipeline X calls
  = (calls ++ [X], Ok (Z.max 0 (nearest_even r))).
Proof.
  intros Hr Hp. rewrite predict_visits_unfold, Hp. cbn [getitem0].
  rewrite (RoundFacts.py_round_real r Hr). reflexivity.
Qed.

Lemma app_unfold (s : Session) (calls : list FeatureRecord) :
  page s = Prediction -> button s = true ->
  app s calls
  = let X := build_features (selected_patient s) (selected_date s) in
    match predict_visits (pipeline s) X calls with
    | (calls', Ok n) =>
        (calls', Ok (PredictedVisitCount (selected_patient s)
                                         (selected_date s) n))
    | (calls', Raise e) => (calls', Raise e)
    end.
Proof.
  intros Hp Hb. unfold app. rewrite Hp, Hb. unfold bind, input_data, ret.
  cbv zeta. destruct (predict_visits _ _ calls) as [calls' [n|e]]; reflexivity.
Qed.

(** X3: when the button is pressed on the prediction page and the pipeline
    raises on the frame of the selection, the run ends with that very
    exception after the one call: no count is shown and nothing is caught. *)
Theorem app_raises (s : Session) (calls : list FeatureRecord) (e : exn) :
  page s = Prediction -> button s = true ->
  pipeline s (build_features (selected_patient s) (selected_date s)) = Raise e ->
  app s calls
  = (calls ++ [build_features (selected_patient s) (selected_date s)], Raise e).
Proof.
  intros Hp Hb He. rewrite (app_unfold s calls Hp Hb). cbv zeta.
  rewrite predict_visits_unfold, He. reflexivity.
Qed.

Lemma app_raises_witness :
  page session_c = Prediction /\ button session_c = true
  /\ app session_c []
     = ([mkFeatureRecord (Some "patient_a") 2025 1 2 1 1],
        Raise (Exn "RuntimeError")).
Proof.
  split; [reflexivity|]. split; [reflexivity|].
  exact (app_raises session_c [] (Exn "RuntimeError")
           eq_refl eq_refl eq_refl).
Defined.

(** X4: when the button is pressed on the prediction page and the pipeline
    returns an array that starts with a real number [r], the page shows, for
    the selected patient and date, the count [max(0, round(r))], having
    called the pipeline once on the frame of the selection. *)
Theorem app_shows_rounded (s : Session) (calls : list FeatureRecord)
                          (r : spec_float) (rest : list pyobj) :
  page s = Prediction -> button s = true -> is_real r = true ->
  pipeline s (build_features (selected_patient s) (selected_date s))
  = Ok (PyArr (PyFloat r :: rest)) ->
  app s calls
  = (calls ++ [build_features (selected_patient s) (selected_date s)],
     Ok (PredictedVisitCount (selected_patient s) (selected_date s)
                             (Z.max 0 (nearest_even r)))).
Proof.
  intros Hp Hb Hr Hv. rewrite (app_unfold s calls Hp Hb). cbv zeta.
  rewrite (predict_visits_real _ _ r rest calls Hr Hv). reflexivity.
Qed.

Lemma app_shows_rounded_witness :
  page session_d = Prediction /\ button session_d = true
  /\ is_real float_1_5 = true
  /\ app session_d []
     = ([mkFeatureRecord (Some "patient_a") 2025 1 2 1 1],
        Ok (PredictedVisitCount (Some "patient_a")
                                (datetime.mkdate 2025 1 1) 2)).
Proof.
  split; [reflexivity|]. split; [reflexivity|]. split; [reflexivity|].
  exact (app_shows_rounded session_d [] float_1_5 []
           eq_refl eq_refl eq_refl eq_refl).
Defined.

(** X6: the shown count is monotone in the scorer output: of two real
    outputs, the larger one never gives the smaller count. *)
Theorem predict_visits_monotone (pipeline1 pipeline2 : Scorer)
    (X : FeatureRecord) (r1 r2 : spec_float) (rest1 rest2 : list pyobj)
    (calls1 calls2 : list FeatureRecord) :
  is_real r1 = true -> is_real r2 = true ->
  pipeline1 X = Ok (PyArr (PyFloat r1 :: rest1)) ->
  pipeline2 X = Ok (PyArr (PyFloat r2 :: rest2)) ->
  (SF2Q r1 <= SF2Q r2)%Q ->
  exists n1 n2,
    snd (predict_visits pipeline1 X calls1) = Ok n1
    /\ snd (predict_visits pipeline2 X calls2) = Ok n2
    /\ n1 <= n2.
Proof.
  intros H1 H2 P1 P2 Hle.
  exists (Z.max 0 (nearest_even r1)), (Z.max 0 (nearest_even r2)).
  rewrite (predict_visits_real _ _ r1 rest1 calls1 H1 P1).
  rewrite (predict_visits_real _ _ r2 rest2 calls2 H2 P2).
  split; [reflexivity|]. split; [reflexivity|].
  pose proof (RoundFacts.nearest_even_mono r1 r2 Hle). lia.
Qed.

Lemma predict_visits_monotone_witness :
  (SF2Q float_m3_2 <= SF2Q float_4_5)%Q
  /\ exists n1 n2,
       snd (predict_visits (fun _ => Ok (PyArr [PyFloat float_m3_2])) X0 [])
       = Ok n1
       /\ snd (predict_visits (fun _ => Ok (PyArr [PyFloat float_4_5])) X0 [])
          = Ok n2
       /\ n1 <= n2.
Proof.
  assert (Hle : (SF2Q float_m3_2 <= SF2Q float_4_5)%Q)
    by (vm_compute; discriminate).
  split; [exact Hle|].
  exact (predict_visits_monotone
           (fun _ => Ok (PyArr [PyFloat float_m3_2]))
           (fun _ => Ok (PyArr [PyFloat float_4_5]))
           X0 float_m3_2 float_4_5 [] [] [] []
           eq_refl eq_refl eq_refl eq_refl Hle).
Defined.

(** X7: a whole-number prediction is shown as it is, clamped at 0: an int
    [k], or a float whose value is the integer [k], gives [max(0, k)]. *)
Theorem predict_visits_whole_number (pipeline : Scorer) (X : FeatureRecord)
    (first : pyobj) (rest : list pyobj) (k : Z)
    (calls : list FeatureRecord) :
  pipeline X = Ok (PyArr (first :: rest)) ->
  first = PyInt k
  \/ (exists r, first = PyFloat r /\ is_real r = true
                /\ (SF2Q r == inject_Z k)%Q) ->
  snd (predict_visits pipeline X calls) = Ok (Z.max 0 k).
Proof.
  intros Hp [-> | [r [-> [Hr Hk]]]].
  - rewrite predict_visits_unfold, Hp. reflexivity.
  - rewrite (predict_visits_real _ _ r rest calls Hr Hp). cbn [snd].
    rewrite (RoundFacts.nearest_even_integer r k Hk). reflexivity.
Qed.

Lemma predict_visits_whole_number_witness :
  (SF2Q float_7_0 == inject_Z 7)%Q
  /\ snd (predict_visits (fun _ => Ok (PyArr [PyFloat float_7_0])) X0 [])
     = Ok 7.
Proof.
  assert (Hk : (SF2Q float_7_0 == inject_Z 7)%Q) by reflexivity.
  split; [exact Hk|].
  exact (predict_visits_whole_number
           (fun _ => Ok (PyArr [PyFloat float_7_0])) X0
           (PyFloat float_7_0) [] 7 [] eq_refl
           (or_intror (ex_intro _ float_7_0
                         (conj eq_refl (conj eq_refl Hk))))).
Defined.

(** X8: for a real scorer output [r], the shown count is 0 exactly when
    [r <= 1/2]; the tie 0.5 itself goes down to 0, and anything above it
    shows at least 1. *)
Theorem predict_visits_zero_iff (pipeline : Scorer) (X : FeatureRecord)
    (r : spec_float) (rest : list pyobj) (calls : list FeatureRecord) :
  is_real r = true ->
  pipeline X = Ok (PyArr (PyFloat r :: rest)) ->
  (snd (predict_visits pipeline X calls) = Ok 0 <-> (SF2Q r <= 1 # 2)%Q).
Proof.
  intros Hr Hp. rewrite (predict_visits_real _ _ r rest calls Hr Hp).
  cbn [snd]. rewrite (RoundFacts.nearest_even_nonpos_iff r). split.
  - intros [= H]. lia.
  - intros H. f_equal. lia.
Qed.

Lemma predict_visits_zero_iff_witness :
  is_real float_0_5 = true
  /\ (SF2Q float_0_5 <= 1 # 2)%Q
  /\ snd (predict_visits (fun _ => Ok (PyArr [PyFloat float_0_5])) X0 [])
     = Ok 0.
Proof.
  assert (Hle : (SF2Q float_0_5 <= 1 # 2)%Q) by (vm_compute; discriminate).
  split; [reflexivity|]. split; [exact Hle|].
  exact (proj2 (predict_visits_zero_iff
                  (fun _ => Ok (PyArr [PyFloat float_0_5])) X0
                  float_0_5 [] [] eq_refl eq_refl) Hle).
Defined.

(** ** More on the feature record *)

(** X10: the week_of_year column counts weeks of the record's own [year]
    except at the turn of the year: only on January 1 to 3 can it be the
    last week (52 or 53) of the year before, and only on December 29 to 31
    week 1 of the year after. *)
Theorem week_of_year_year_window (p : option string) (d : datetime.date) :
  datetime.valid d = true ->
  let X := build_features p d in
  let iso := datetime.iso_year (datetime.isocalendar d) in
  iso = year X
  \/ (iso = year X - 1 /\ month X = 1 /\ datetime.day d <= 3
      /\ 52 <= week_of_year X)
  \/ (iso = year X + 1 /\ month X = 12 /\ 29 <= datetime.day d
      /\ week_of_year X = 1).
Proof.
  intros H. exact (CalendarFacts.iso_year_window d H).
Qed.

Lemma week_of_year_year_window_witness :
  datetime.valid (datetime.mkdate 2021 1 1) = true
  /\ (2020 = 2021 - 1
      -> week_of_year (build_features None (datetime.mkdate 2021 1 1)) = 53).
Proof.
  split; [reflexivity|]. intros _.
  destruct (week_of_year_year_window None (datetime.mkdate 2021 1 1) eq_refl)
    as [H | [H | H]]; reflexivity.
Defined.

(** X11: the ISO weekday that [isocalendar()] computes beside the week is
    the day_of_week column plus one (Monday 1 ... Sunday 7): the two columns
    taken from the date use the same week, starting on Monday. *)
Theorem iso_weekday_is_day_of_week (p : option string) (d : datetime.date) :
  datetime.iso_weekday (datetime.isocalendar d)
  = day_of_week (build_features p d) + 1.
Proof. exact (CalendarFacts.iso_weekday_weekday d). Qed.

(** X12: two valid dates of the same Monday-to-Sunday week get the same
    week_of_year, also when the week runs across New Year. *)
Theorem week_of_year_same_week (p1 p2 : option string)
                               (d1 d2 : datetime.date) :
  datetime.valid d1 = true -> datetime.valid d2 = true ->
  datetime.toordinal d1 - datetime.weekday d1
  = datetime.toordinal d2 - datetime.weekday d2 ->
  week_of_year (build_features p1 d1) = week_of_year (build_features p2 d2).
Proof.
  intros H1 H2 Hm.
  exact (proj1 (CalendarFacts.same_week_same_number d1 d2 H1 H2 Hm)).
Qed.

Lemma week_of_year_same_week_witness :
  datetime.valid date_2024_12_30 = true
  /\ datetime.valid (datetime.mkdate 2025 1 5) = true
  /\ week_of_year (build_features None date_2024_12_30)
     = week_of_year (build_features None (datetime.mkdate 2025 1 5)).
Proof.
  split; [reflexivity|]. split; [reflexivity|].
  exact (week_of_year_same_week None None date_2024_12_30
           (datetime.mkdate 2025 1 5) eq_refl eq_refl eq_refl).
Defined.

(** X13: from a day to the next, week_of_year stays the same unless the day
    is a Sunday; after a Sunday it goes up by one or starts again at 1. *)
Theorem week_of_year_tomorrow (p : option string) (d : datetime.date) :
  datetime.valid d = true -> d <> datetime.mkdate 9999 12 31 ->
  (day_of_week (build_features p d) < 6 ->
   week_of_year (build_features p (tomorrow d))
   = week_of_year (build_features p d))
  /\ (day_of_week (build_features p d) = 6 ->
      week_of_year (build_features p (tomorrow d))
      = week_of_year (build_features p d) + 1
      \/ week_of_year (build_features p (tomorrow d)) = 1).
Proof.
  intros H Hlast. exact (CalendarFacts.week_tomorrow d H Hlast).
Qed.

Lemma week_of_year_tomorrow_witness :
  datetime.valid (datetime.mkdate 2024 12 29) = true
  /\ day_of_week (build_features None (datetime.mkdate 2024 12 29)) = 6
  /\ (week_of_year (build_features None (tomorrow (datetime.mkdate 2024 12 29)))
      = week_of_year (build_features None (datetime.mkdate 2024 12 29)) + 1
      \/ week_of_year
           (build_features None (tomorrow (datetime.mkdate 2024 12 29))) = 1).
Proof.
  split; [reflexivity|]. split; [reflexivity|].
  exact (proj2 (week_of_year_tomorrow None (datetime.mkdate 2024 12 29)
                  eq_refl ltac:(discriminate)) eq_refl).
Defined.

(** X14: the feature record loses nothing: two valid dates with equal
    records are the same date (and the patients are the same), so the
    pipeline sees different rows for different days. *)
Theorem build_features_injective (p1 p2 : option string)
                                 (d1 d2 : datetime.date) :
  datetime.valid d1 = true -> datetime.valid d2 = true ->
  build_features p1 d1 = build_features p2 d2 ->
  p1 = p2 /\ d1 = d2.
Proof.
  intros H1 H2 E.
  split; [exact (f_equal PATIENT_NAME E)|].
  apply (CalendarFacts.features_determine_date d1 d2 H1 H2).
  - exact (f_equal year E).
  - exact (f_equal month E).
  - exact (f_equal day_of_week E).
  - exact (f_equal week_of_year E).
Qed.

Lemma build_features_injective_witness :
  datetime.valid date_2024_12_30 = true
  /\ (build_features None date_2024_12_30
      = build_features None date_2024_12_30
      -> date_2024_12_30 = date_2024_12_30).
Proof.
  split; [reflexivity|]. intros E.
  exact (proj2 (build_features_injective None None date_2024_12_30
                  date_2024_12_30 eq_refl eq_refl E)).
Defined.

(* Year, week and weekday alone would not do: the first and the last
   Monday of 2024 share them, and differ in the month. *)
Example year_week_day_ambiguous :
  let a := build_features None (datetime.mkdate 2024 1 1) in
  let b := build_features None date_2024_12_30 in
  year a = year b /\ week_of_year a = week_of_year b
  /\ day_of_week a = day_of_week b /\ month a <> month b.
Proof. cbv zeta. repeat split. discriminate. Qed.

(** X15: the quarter column cuts the year into runs of three months:
    quarter [q] holds exactly the months [3q - 2] to [3q]. *)
Theorem quarter_months (p : option string) (d : datetime.date) (q : Z) :
  quarter (build_features p d) = q
  <-> 3 * q - 2 <= month (build_features p d) <= 3 * q.
Proof.
  cbn [build_features quarter month]. split; intros H.
  - Z.div_mod_to_equations. lia.
  - Z.div_mod_to_equations. lia.
Qed.

(** ** The simulated series of the insights page *)

Module SeriesFacts.

Lemma combine_map {A B C} (f : A -> B) (g : A -> C) (l : list A) :
  combine (map f l) (map g l) = map (fun a => (f a, g a)) l.
Proof.
  induction l as [|a l IH]; [reflexivity|]. cbn [map combine]. now rewrite IH.
Qed.

Lemma date_range_length start stop :
  List.length (date_range start stop)
  = Z.to_nat (datetime.toordinal stop - datetime.toordinal start + 1).
Proof. unfold date_range. now rewrite length_map, length_seq. Qed.

Lemma visits_by_date_map start stop :
  visits_by_date start stop
  = map (fun i => (datetime.toordinal start + Z.of_nat i,
                   100 + Z.of_nat i mod 30 * 10))
        (seq 0 (Z.to_nat (datetime.toordinal stop
                          - datetime.toordinal start + 1))).
Proof.
  unfold visits_by_date, simulated_visits. rewrite date_range_length.
  unfold date_range. apply combine_map.
Qed.

End SeriesFacts.

(** X16: the simulated series has one value for each day from the first to
    the last day, both included (none when the last day is earlier); the
    value of a day is 100 plus ten times the number of days since the first
    day modulo 30, hence a multiple of ten between 100 and 390 that comes
    back every 30 days. *)
Theorem visits_by_date_values (start stop : datetime.date) :
  List.length (visits_by_date start stop)
  = Z.to_nat (datetime.toordinal stop - datetime.toordinal start + 1)
  /\ (forall day v,
        In (day, v) (visits_by_date start stop) <->
        datetime.toordinal start <= day <= datetime.toordinal stop
        /\ v = 100 + (day - datetime.toordinal start) mod 30 * 10)
  /\ (forall day v, In (day, v) (visits_by_date start stop) ->
        100 <= v <= 390 /\ v mod 10 = 0)
  /\ (forall day v v',
        In (day, v) (visits_by_date start stop) ->
        In (day + 30, v') (visits_by_date start stop) -> v' = v).
Proof.
  assert (Hin : forall day v,
             In (day, v) (visits_by_date start stop) <->
             datetime.toordinal start <= day <= datetime.toordinal stop
             /\ v = 100 + (day - datetime.toordinal start) mod 30 * 10).
  { intros day v. rewrite SeriesFacts.visits_by_date_map, in_map_iff. split.
    - intros [i [[= <- <-] Hi]]. apply in_seq in Hi.
      split; [lia|].
      replace (datetime.toordinal start + Z.of_nat i - datetime.toordinal start)
        with (Z.of_nat i) by lia.
      reflexivity.
    - intros [Hd ->].
      exists (Z.to_nat (day - datetime.toordinal start)). split.
      + rewrite Z2Nat.id by lia. f_equal. lia.
      + apply in_seq. lia. }
  split; [|split; [exact Hin|split]].
  - rewrite SeriesFacts.visits_by_date_map. now rewrite length_map, length_seq.
  - intros day v H. apply Hin in H. destruct H as [_ ->].
    Z.div_mod_to_equations; lia.
  - intros day v v' H H'. apply Hin in H, H'.
    destruct H as [_ ->], H' as [_ ->].
    replace (day + 30 - datetime.toordinal start)
      with (day - datetime.toordinal start + 1 * 30) by lia.
    now rewrite Z.mod_add by lia.
Qed.

Lemma visits_by_date_values_witness :
  List.length (visits_by_date date_2024_01_11 date_2025_12_03) = 693%nat
  /\ In (datetime.toordinal date_2024_12_30, 340)
        (visits_by_date date_2024_01_11 date_2025_12_03).
Proof.
  destruct (visits_by_date_values date_2024_01_11 date_2025_12_03)
    as (Hlen & Hin & _).
  split; [exact Hlen|].
  apply Hin. split; [vm_compute; split; discriminate | reflexivity].
Defined.
